(** * DataTalk-AI: the query generator, the backend adapters and the
      auto-correction controller of [app.py], embedded in Rocq.

    Text is modelled by Rocq strings of ASCII characters; on such text the
    functions [strip], [upper], [startswith] and [replace] below compute what
    Python's [str] methods compute.  The text-generation service, the
    database drivers and [json.loads] are external collaborators: they are
    fields of the class [Services], and every theorem holds for all of
    them. *)

From Stdlib Require Import Strings.Ascii.
From stdpp Require Import gmap strings list fin_maps pretty.

Local Open Scope string_scope.
Local Open Scope Z_scope.

(** ** Python string methods *)

Module Str.

(** [c.isspace()] on an ASCII character: TAB, LF, VT, FF, CR, the four
    separators FS GS RS US, and the space. *)
Definition isspace (c : ascii) : bool :=
  let n := N_of_ascii c in
  ((9 <=? n)%N && (n <=? 13)%N) || ((28 <=? n)%N && (n <=? 32)%N).

Definition islower (c : ascii) : bool :=
  let n := N_of_ascii c in (97 <=? n)%N && (n <=? 122)%N.


Definition upper_char (c : ascii) : ascii :=
  if islower c then ascii_of_N (N_of_ascii c - 32) else c.


(** [s.upper()] *)
Fixpoint upper (s : string) : string :=
  match s with
  | EmptyString => EmptyString
  | String c s' => String (upper_char c) (upper s')
  end.

(** [s.lstrip()] *)
Fixpoint lstrip (s : string) : string :=
  match s with
  | EmptyString => EmptyString
  | String c s' => if isspace c then lstrip s' else s
  end.

(** [s.rstrip()]: a character is kept unless it is a space and everything
    after it was dropped. *)
Fixpoint rstrip (s : string) : string :=
  match s with
  | EmptyString => EmptyString
  | String c s' =>
      match rstrip s' with
      | EmptyString => if isspace c then EmptyString else String c EmptyString
      | r => String c r
      end
  end.

(** [s.strip()] *)
Definition strip (s : string) : string := rstrip (lstrip s).

(** [s.startswith(p)] *)
Fixpoint startswith (p s : string) : bool :=
  match p, s with
  | EmptyString, _ => true
  | String _ _, EmptyString => false
  | String a p', String c s' => if decide (a = c) then startswith p' s' else false
  end.

(** [s.replace(old, new)] for a non-empty [old]: the text is scanned from
    the left; at an occurrence of [old] the text [new] is emitted and the
    [length old] characters of the occurrence are skipped ([skip] counts
    the characters of the current occurrence still to be dropped). *)
Fixpoint replace_go (old new : string) (skip : nat) (s : string) : string :=
  match s with
  | EmptyString => EmptyString
  | String c s' =>
      match skip with
      | S k => replace_go old new k s'
      | O =>
          if startswith old s
          then new +:+ replace_go old new (Nat.pred (String.length old)) s'
          else String c (replace_go old new O s')
      end
  end.

(** With an empty [old] Python puts [new] before every character and at
    the end. *)
Fixpoint interleave (new s : string) : string :=
  match s with
  | EmptyString => new
  | String c s' => new +:+ String c (interleave new s')
  end.

Definition replace (old new s : string) : string :=
  match old with
  | EmptyString => interleave new s
  | String _ _ => replace_go old new O s
  end.

(** *** Predicates on text, used to state properties *)

(** No character of the text is a space. *)
Fixpoint nospace (p : string) : bool :=
  match p with
  | EmptyString => true
  | String a p' => negb (isspace a) && nospace p'
  end.

(** The text is empty or starts with a character that is not a space. *)
Definition lstripped (s : string) : bool :=
  match s with
  | EmptyString => true
  | String c _ => negb (isspace c)
  end.

End Str.

(** ** The query generator's post-processing ([generate_sql_with_gemini],
       the lines between the service call and [return sql]). *)

Definition fence : string := "```".
Definition fence_sql : string := "```sql".

Definition clean_sql (text : string) : string :=
  let sql := Str.strip text in
  if Str.startswith fence_sql sql then
    Str.strip (Str.replace fence "" (Str.replace fence_sql "" sql))
  else if Str.startswith fence sql then
    Str.strip (Str.replace fence "" sql)
  else sql.

(** A code fence in a text. *)

Module Fence.
Import Str.

(** The number of backticks the text starts with. *)
Fixpoint ticks (s : string) : nat :=
  match s with
  | String c s' => if decide ("`"%char = c) then S (ticks s') else O
  | EmptyString => O
  end.

(** A code fence occurs somewhere in the text. *)
Fixpoint contains_fence (s : string) : bool :=
  match s with
  | EmptyString => false
  | String _ s' => startswith fence s || contains_fence s'
  end.
End Fence.

(** ** Read or write, as the specification words it *)

Module Keyword.
Import Str.






End Keyword.

(** ** Values, results and the external services *)

(** Values stored in connection parameters, rows and documents. *)
Inductive value :=
  | VNone
  | VInt (z : Z)
  | VStr (s : string)
  | VObjectId (hex : string).

Global Instance value_eq_dec : EqDecision value.
Proof. solve_decision. Defined.

(** [str(v)] *)
Definition py_str (v : value) : string :=
  match v with
  | VNone => "None"
  | VInt z => pretty z
  | VStr s => s
  | VObjectId hex => hex
  end.

(** A Python dict with text keys: connection parameters, a row, a
    document. *)
Abbreviation dict := (gmap string value).

(** [dict(zip(columns, row))]: later pairs overwrite earlier ones. *)
Definition dict_zip (columns : list string) (row : list value) : dict :=
  foldl (λ d kv, <[kv.1 := kv.2]> d) ∅ (zip columns row).

(** What a cursor holds after [cur.execute(sql)]. *)
Record cursor := Cursor {
  description : list string;
  fetchall : list (list value);
  rowcount : Z
}.

(** What a backend adapter returns: the rows of a read as records, or the
    dict [{"affected_rows": n}] of a write. *)
Inductive exec_result :=
  | Rows (records : list dict)
  | Affected (affected_rows : Z).

(** A call either returns or raises an exception; of an exception only
    [str(e)] is ever used. *)
Inductive outcome (A : Type) :=
  | Return (a : A)
  | Raise (msg : string).
Arguments Return {A} a.
Arguments Raise {A} msg.

(** The database a relational connection is opened on. *)
Inductive target :=
  | SqliteDb (db_path : value)
  | MysqlDb (params : dict)
  | PostgresDb (params : dict).

(** The collaborators of [app.py]: the text-generation service, the three
    relational drivers, pymongo and [json.loads].  [ext] is the state of the
    outside world (the databases, the service); every call may change it. *)
Class Services := {
  ext : Type;
  (** [GenerativeModel("gemini-pro").generate_content(prompt).text] *)
  generate_content : string → ext → outcome string * ext;
  (** [sqlite3.connect], [mysql.connector.connect], [psycopg2.connect] *)
  db_connect : target → ext → outcome () * ext;
  (** [cur.execute(sql)] *)
  db_execute : target → string → ext → outcome cursor * ext;
  (** [conn.commit()] *)
  db_commit : target → ext → outcome () * ext;
  (** the filter documents of pymongo; [empty_filter] is [{}] *)
  Filter : Type;
  empty_filter : Filter;
  (** [json.loads(text)] *)
  json_loads : string → outcome Filter;
  (** [MongoClient(host=, port=, username=, password=)] *)
  mongo_client : value → value → option value → option value →
                 ext → outcome () * ext;
  (** [client[database][collection]], which checks the two names *)
  Collection : Type;
  mongo_collection : option value → option value → outcome Collection;
  (** [list(coll.find(mongo_query))] *)
  mongo_find : Collection → Filter → ext → outcome (list dict) * ext
}.

(** ** The world and the monad of effectful code *)

(** The effects of [app.py] that its callers can observe. *)
Inductive event :=
  | Opened (h : nat)
  | Executed (h : nat) (sql : string)
  | Committed (h : nat)
  | Closed (h : nat)
  | Generated (prompt : string).

Global Instance event_eq_dec : EqDecision event.
Proof. solve_decision. Defined.

(** The connections (and clients) that a log, newest event first, leaves
    open. *)
Fixpoint live (log : list event) : gset nat :=
  match log with
  | [] => ∅
  | Opened h :: older => {[h]} ∪ live older
  | Closed h :: older => live older ∖ {[h]}
  | _ :: older => live older
  end.

Record world `{Services} := World {
  outside : ext;
  next_handle : nat;
  log : list event   (* newest first *)
}.

Section Effects.
Context `{Services}.

(** A computation runs in a world, ends by returning or by raising, and
    leaves a world. *)
Definition M (A : Type) : Type := world → outcome A * world.

Definition ret {A} (a : A) : M A := λ w, (Return a, w).
Definition raise {A} (msg : string) : M A := λ w, (Raise msg, w).
Definition bind {A B} (c : M A) (k : A → M B) : M B :=
  λ w, match c w with
       | (Return a, w') => k a w'
       | (Raise msg, w') => (Raise msg, w')
       end.

(** [try: body except Exception as e: handler(str(e))] *)
Definition try_except {A} (body : M A) (handler : string → M A) : M A :=
  λ w, match body w with
       | (Return a, w') => (Return a, w')
       | (Raise msg, w') => handler msg w'
       end.

(** [try: body finally: final], for a [final] that does not raise. *)
Definition try_finally {A} (body : M A) (final : M ()) : M A :=
  λ w, let '(r, w') := body w in (r, (final w').2).

(** A call to one of the services. *)
Definition call {A} (f : ext → outcome A * ext) : M A :=
  λ w, let '(r, x) := f (outside w) in
       (r, World _ x (next_handle w) (log w)).

Definition emit (e : event) : M () :=
  λ w, (Return tt, World _ (outside w) (next_handle w) (e :: log w)).

Definition fresh_handle : M nat :=
  λ w, (Return (next_handle w),
        World _ (outside w) (S (next_handle w)) (log w)).

(** Lift a call that does not touch the world. *)
Definition pure_call {A} (r : outcome A) : M A := λ w, (r, w).
End Effects.

Global Instance M_ret `{Services} : MRet M := @ret _.
Global Instance M_bind `{Services} : MBind M := λ A B k c, bind c k.

(** ** The backend adapters *)

(** An open connection: its handle, and the database it is opened on. *)
Record connection := Connection { handle : nat; opened_on : target }.

(** The newline of Python's triple-quoted strings. *)
Definition nl : string := String "010"%char EmptyString.

(** The values the controller and the endpoint put in their dicts. *)
Inductive pyval :=
  | PBool (b : bool)
  | PInt (z : Z)
  | PStr (s : string)
  | PResults (r : exec_result).

Global Instance exec_result_eq_dec : EqDecision exec_result.
Proof. solve_decision. Defined.

Global Instance pyval_eq_dec : EqDecision pyval.
Proof. solve_decision. Defined.

Abbreviation record := (gmap string pyval).

Section Program.
Context `{Services}.

Definition connect (t : target) : M connection :=
  call (db_connect t);;
  h ← fresh_handle;
  emit (Opened h);;
  mret (Connection h t).

Definition cur_execute (conn : connection) (sql : string) : M cursor :=
  emit (Executed (handle conn) sql);;
  call (db_execute (opened_on conn) sql).

Definition commit (conn : connection) : M () :=
  call (db_commit (opened_on conn));;
  emit (Committed (handle conn)).

Definition close (conn : connection) : M () := emit (Closed (handle conn)).

(** [sql.strip().upper().startswith('SELECT')] *)
Definition is_select (sql : string) : bool :=
  Str.startswith "SELECT" (Str.upper (Str.strip sql)).

(** The three relational adapters differ in how a row becomes a record:
    [dict(row)] over [sqlite3.Row], the driver's own dictionaries for a
    [dictionary=True] cursor, and [dict(zip(columns, row))]. *)
Definition execute_sql_sqlite (db_path : value) (sql : string) : M exec_result :=
  conn ← connect (SqliteDb db_path);
  cur ← cur_execute conn sql;
  results ←
    (if is_select sql then
       mret (Rows ((λ row, dict_zip (description cur) row) <$> fetchall cur))
     else
       commit conn;;
       mret (Affected (rowcount cur)));
  close conn;;
  mret results.

Definition execute_sql_mysql (params : dict) (sql : string) : M exec_result :=
  conn ← connect (MysqlDb params);
  cur ← cur_execute conn sql;
  results ←
    (if is_select sql then
       mret (Rows (dict_zip (description cur) <$> fetchall cur))
     else
       commit conn;;
       mret (Affected (rowcount cur)));
  close conn;;
  mret results.

Definition execute_sql_postgres (params : dict) (sql : string) : M exec_result :=
  conn ← connect (PostgresDb params);
  cur ← cur_execute conn sql;
  results ←
    (if is_select sql then
       let columns := description cur in
       let rows := fetchall cur in
       mret (Rows ((λ row, dict_zip columns row) <$> rows))
     else
       commit conn;;
       mret (Affected (rowcount cur)));
  close conn;;
  mret results.

(** [if '_id' in result: result['_id'] = str(result['_id'])] *)
Definition coerce_id (result : dict) : dict :=
  match result !! "_id" with
  | Some v => <["_id" := VStr (py_str v)]> result
  | None => result
  end.

Definition mongo_connect (params : dict) : M nat :=
  call (mongo_client (default (VStr "localhost") (params !! "host"))
                     (default (VInt 27017) (params !! "port"))
                     (params !! "username")
                     (params !! "password"));;
  h ← fresh_handle;
  emit (Opened h);;
  mret h.

(** The filter [execute_sql_mongo] builds from the query text. *)
Definition mongo_filter (query_text : string) : M Filter :=
  if Str.startswith "{" (Str.strip query_text)
  then pure_call (json_loads query_text)
  else mret empty_filter.

Definition execute_sql_mongo (params : dict) (query_text : string)
    (collection : option value) : M (list dict) :=
  client ← mongo_connect params;
  coll ← pure_call (mongo_collection (params !! "database") collection);
  try_finally
    (try_except
       (mongo_query ← mongo_filter query_text;
        results ← call (mongo_find coll mongo_query);
        mret (coerce_id <$> results))
       (λ e, raise ("MongoDB query error: " +:+ e)))
    (emit (Closed client)).

(** ** The query generator *)

Definition generate_sql_with_gemini (prompt : string) (max_retries : Z) : M string :=
  try_except
    (emit (Generated prompt);;
     text ← call (generate_content prompt);
     mret (clean_sql text))
    (λ e, raise ("Gemini API error: " +:+ e)).

(** ** The auto-correction controller *)

(** [d[k]]: a missing key raises [KeyError], whose text is the key's
    [repr]. *)
Definition getitem {V} (d : gmap string V) (k : string) : M V :=
  match d !! k with
  | Some v => mret v
  | None => raise ("'" +:+ k +:+ "'")
  end.

(** The body of the [try] of [auto_correct_and_execute]. *)
Definition execute_backend (db_type : string) (db_params : dict) (sql : string)
    : M exec_result :=
  if decide (db_type = "sqlite") then
    db_path ← getitem db_params "path";
    execute_sql_sqlite db_path sql
  else if decide (db_type = "mysql") then execute_sql_mysql db_params sql
  else if decide (db_type = "postgres") then execute_sql_postgres db_params sql
  else if decide (db_type = "mongo") then
    results ← execute_sql_mongo db_params sql (db_params !! "collection");
    mret (Rows results)
  else raise "Unsupported database type".
End Program.

Section Controller.
Context `{Services}.

(** The f-string of the correction prompt. *)
Definition correction_prompt (error_msg original_question schema_info sql : string)
    : string :=
  nl +:+ "The following SQL query failed with error: " +:+ error_msg +:+ nl +:+
  nl +:+ "Original question: " +:+ original_question +:+ nl +:+
  "Schema: " +:+ schema_info +:+ nl +:+
  "Failed SQL: " +:+ sql +:+ nl +:+
  nl +:+ "Please provide a corrected SQL query that fixes this error. " +:+ nl +:+
  "Return only the SQL query without any explanation or formatting." +:+ nl.

(** The three dicts [auto_correct_and_execute] returns. *)
Definition success_record (results : exec_result) (sql : string) (attempt : Z)
    : record :=
  {[ "success" := PBool true;
     "results" := PResults results;
     "final_sql" := PStr sql;
     "attempts" := PInt (attempt + 1) ]}.

Definition correction_failed_record (correction_error error_msg : string)
    (attempt : Z) : record :=
  {[ "success" := PBool false;
     "error" := PStr ("Auto-correction failed: " +:+ correction_error);
     "original_error" := PStr error_msg;
     "attempts" := PInt (attempt + 1) ]}.

Definition last_attempt_record (error_msg sql : string) (attempt : Z) : record :=
  {[ "success" := PBool false;
     "error" := PStr error_msg;
     "final_sql" := PStr sql;
     "attempts" := PInt (attempt + 1) ]}.

(** The loop [for attempt in range(max_retries)], over the attempts still
    to run.  A loop that runs out returns [None]. *)
Fixpoint attempt_loop (db_type : string) (db_params : dict)
    (schema_info original_question : string) (max_retries : Z)
    (attempts : list Z) (sql : string) : M (option record) :=
  match attempts with
  | [] => mret None
  | attempt :: rest =>
      λ w,
        match execute_backend db_type db_params sql w with
        | (Return results, w1) =>
            (Return (Some (success_record results sql attempt)), w1)
        | (Raise error_msg, w1) =>
            if bool_decide (attempt < max_retries - 1) then
              match generate_sql_with_gemini
                      (correction_prompt error_msg original_question schema_info sql)
                      3 w1 with
              | (Return corrected_sql, w2) =>
                  attempt_loop db_type db_params schema_info original_question
                               max_retries rest corrected_sql w2
              | (Raise correction_error, w2) =>
                  (Return (Some (correction_failed_record correction_error
                                                          error_msg attempt)), w2)
              end
            else
              (Return (Some (last_attempt_record error_msg sql attempt)), w1)
        end
  end.

Definition auto_correct_and_execute (db_type : string) (db_params : dict)
    (sql schema_info original_question : string) (max_retries : Z)
    : M (option record) :=
  attempt_loop db_type db_params schema_info original_question max_retries
               (seqZ 0 max_retries) sql.

(** ** The endpoint [/execute_query] *)

(** The JSON body of a request; a field is [None] when the key is
    absent. *)
Record request := Request {
  dbType : option string;
  dbParams : option dict;
  req_sql : option string;
  req_schema : option string;
  question : option string
}.

(** Truthiness of the three required fields. *)
Definition truthy_text (o : option string) : bool :=
  match o with Some s => bool_decide (s ≠ "") | None => false end.
Definition truthy_dict (o : option dict) : bool :=
  match o with Some d => bool_decide (d ≠ ∅) | None => false end.

(** [bool(v)] *)
Definition truthy (v : pyval) : bool :=
  match v with
  | PBool b => b
  | PInt z => bool_decide (z ≠ 0)
  | PStr s => bool_decide (s ≠ "")
  | PResults (Rows l) => bool_decide (l ≠ [])
  | PResults (Affected _) => true
  end.

(** A response: the dict given to [jsonify], and the status code. *)
Definition execute_query (data : request) : M (record * Z) :=
  let db_type := dbType data in
  let db_params := dbParams data in
  let sql := req_sql data in
  let schema := default "" (req_schema data) in
  let question := default "" (question data) in
  if negb (truthy_text db_type && truthy_dict db_params && truthy_text sql) then
    mret ({[ "error" := PStr "dbType, dbParams, and sql required" ]}, 400)
  else
    result ← auto_correct_and_execute (default "" db_type) (default ∅ db_params)
               (default "" sql) schema question 3;
    match result with
    | None => raise "'NoneType' object is not subscriptable"
    | Some result =>
        success ← getitem result "success";
        if truthy success then
          results ← getitem result "results";
          final_sql ← getitem result "final_sql";
          attempts ← getitem result "attempts";
          mret ({[ "success" := PBool true;
                   "results" := results;
                   "final_sql" := final_sql;
                   "attempts" := attempts ]}, 200)
        else
          error ← getitem result "error";
          mret ({[ "success" := PBool false;
                   "error" := error;
                   "attempts" := default (PInt 1) (result !! "attempts") ]}, 500)
    end.
End Controller.

Section Relational.
Context `{Services}.

(** The adapter of a relational backend. *)
Definition execute_relational (t : target) (sql : string) : M exec_result :=
  match t with
  | SqliteDb db_path => execute_sql_sqlite db_path sql
  | MysqlDb params => execute_sql_mysql params sql
  | PostgresDb params => execute_sql_postgres params sql
  end.
End Relational.

(** The identifier of [d'] is the text of the identifier of [d], and the
    other fields are those of [d]. *)
Definition id_as_text (d d' : dict) : Prop :=
  d' !! "_id" = (λ v, VStr (py_str v)) <$> d !! "_id" ∧
  ∀ k, k ≠ "_id" → d' !! k = d !! k.

(** ** Attempts of a correction cycle *)

Section Attempts.
Context `{Services}.
Variables (db_type : string) (db_params : dict).
Variables (schema_info original_question : string).

(** [repaired k sql w sql' w']: in a cycle that is about to execute [sql] in
    the world [w], the next [k] attempts fail and are each followed by a
    successful correction; this leaves the query [sql'] to execute in the
    world [w']. *)
Inductive repaired : nat → string → world → string → world → Prop :=
  | repaired_none sql w : repaired O sql w sql w
  | repaired_next k sql w error_msg w1 corrected_sql w2 sql' w' :
      execute_backend db_type db_params sql w = (Raise error_msg, w1) →
      generate_sql_with_gemini
        (correction_prompt error_msg original_question schema_info sql) 3 w1
        = (Return corrected_sql, w2) →
      repaired k corrected_sql w2 sql' w' →
      repaired (S k) sql w sql' w'.
End Attempts.

Section Requests.
Context `{Services}.

(** A request with its three required fields. *)
Definition complete (data : request) : Prop :=
  truthy_text (dbType data) && truthy_dict (dbParams data)
    && truthy_text (req_sql data) = true.

(** The cycle the endpoint runs for a request. *)
Definition cycle_of (data : request) : M (option record) :=
  auto_correct_and_execute (default "" (dbType data)) (default ∅ (dbParams data))
    (default "" (req_sql data)) (default "" (req_schema data))
    (default "" (question data)) 3.
End Requests.

(** ** Scripted services, to run the program on concrete inputs *)

Module Scripted.

(** The outside world is a script: the outcomes of the next statements,
    the outcomes of the next generations, and the documents of the one
    collection. *)
Record script := Script {
  statements : list (outcome cursor);
  generations : list (outcome string);
  documents : list dict
}.

Definition next_statement (x : script) : outcome cursor * script :=
  match statements x with
  | o :: rest => (o, Script rest (generations x) (documents x))
  | [] => (Raise "no such table: nosuchtable", x)
  end.

Definition next_generation (x : script) : outcome string * script :=
  match generations x with
  | o :: rest => (o, Script (statements x) rest (documents x))
  | [] => (Raise "quota exceeded", x)
  end.

Definition collection_name (database collection : option value) : outcome string :=
  match database, collection with
  | Some (VStr _), Some (VStr c) => Return c
  | _, _ => Raise "name must be an instance of str"
  end.

Definition services : Services := {|
  ext := script;
  generate_content := λ _, next_generation;
  db_connect := λ _ x, (Return tt, x);
  db_execute := λ _ _, next_statement;
  db_commit := λ _ x, (Return tt, x);
  Filter := string;
  empty_filter := "{}";
  json_loads := λ text, Return text;
  mongo_client := λ _ _ _ _ x, (Return tt, x);
  Collection := string;
  mongo_collection := collection_name;
  mongo_find := λ _ _ x, (Return (documents x), x)
|}.

Definition start (x : script) : @world services := @World services x O [].

Definition users_cursor : cursor :=
  Cursor ["id"; "name"] [[VInt 1; VStr "ada"]; [VInt 2; VStr "bob"]] (-1).


Definition users_db : dict := {[ "path" := VStr "users.db" ]}.
End Scripted.

(** ** Runs on scripted services *)

Module Runs.
Import Scripted.

(** The world a computation leaves. *)
Definition after {A} (c : @M services A) (w : @world services) : @world services :=
  (c w).2.

Definition schema : string := "users(id int, name text)".
Definition asked : string := "List all users".

Definition backend (sql : string) : @M services exec_result :=
  @execute_backend services "sqlite" users_db sql.
Definition correction (error_msg sql : string) : @M services string :=
  @generate_sql_with_gemini services
    (correction_prompt error_msg asked schema sql) 3.
Definition cycle (sql : string) (max_retries : Z) : @M services (option record) :=
  @auto_correct_and_execute services "sqlite" users_db sql schema asked max_retries.

(** Two statements fail; the first correction comes back fenced, the
    second generation fails. *)
Definition two_failures : script :=
  Script [Raise "near SELEC: syntax error"; Raise "no such table: user"]
         [Return "```sql SELECT * FROM user ```"; Raise "quota exceeded"]
         [].

(** Every statement fails, every correction is generated. *)
Definition always_fails : script :=
  Script []
         [Return "SELECT * FROM nosuchtable;"; Return "SELECT * FROM  nosuchtable"]
         [].

Definition first_ok : script := Script [Return users_cursor] [] [].

Definition fixed_once : script :=
  Script [Raise "no such column: nam"; Return users_cursor]
         [Return "SELECT id, name FROM users"] [].

(** A failure that passes: the correction is the query it was given. *)
Definition locked_once : script :=
  Script [Raise "database is locked"; Return users_cursor]
         [Return "SELECT * FROM users"] [].

(** Nothing works: statements and generations all fail. *)
Definition all_down : script := Script [] [] [].

Definition people : list dict :=
  [ {[ "_id" := VObjectId "65a1f0c2"; "age" := VInt 41 ]};
    {[ "_id" := VObjectId "65a1f0c3"; "age" := VInt 35 ]} ].

Definition shop : dict := {[ "host" := VStr "db.local"; "database" := VStr "shop" ]}.


End Runs.

(** * The rest of [app.py]: the first prompt, the schema, the other
      endpoints *)

(** The f-string of [build_prompt]. *)
Definition build_prompt (question schema_info db_type : string) : string :=
  nl +:+ "You are an expert SQL assistant. Convert the following natural language request into a "
     +:+ Str.upper db_type +:+ " query." +:+ nl +:+
  nl +:+ "Database Schema:" +:+ nl +:+
  schema_info +:+ nl +:+
  nl +:+ "Natural Language Request: " +:+ question +:+ nl +:+
  nl +:+ "Important guidelines:" +:+ nl +:+
  "- Return only the SQL query, no explanations or formatting" +:+ nl +:+
  "- Use proper " +:+ Str.upper db_type +:+ " syntax" +:+ nl +:+
  "- Make sure column names and table names match the schema exactly" +:+ nl +:+
  "- For aggregations, use appropriate GROUP BY clauses" +:+ nl +:+
  "- Handle NULL values appropriately" +:+ nl +:+
  nl +:+ "SQL Query:" +:+ nl.

Section Schema.
Context `{Services}.

(** [row[i]] on a tuple of the driver. *)
Definition tuple_get (row : list value) (i : nat) : M value :=
  match row !! i with
  | Some v => mret v
  | None => raise "tuple index out of range"
  end.

(** [for col in columns: schema_info += f"  - {col[i]} ({col[j]})\n"] *)
Fixpoint describe_columns (i j : nat) (columns : list (list value))
    (schema_info : string) : M string :=
  match columns with
  | [] => mret schema_info
  | col :: rest =>
      name ← tuple_get col i;
      type ← tuple_get col j;
      describe_columns i j rest
        (schema_info +:+ "  - " +:+ py_str name +:+ " (" +:+ py_str type +:+ ")" +:+ nl)
  end.

(** [for table in tables: ...], with the statement that describes a table
    and the positions of the name and the type in its rows. *)
Fixpoint describe_tables (conn : connection) (statement : string → string)
    (i j : nat) (tables : list (list value)) (schema_info : string) : M string :=
  match tables with
  | [] => mret schema_info
  | table :: rest =>
      table_name ← tuple_get table 0;
      cur ← cur_execute conn (statement (py_str table_name));
      let columns := fetchall cur in
      schema_info ← describe_columns i j columns
                      (schema_info +:+ nl +:+ py_str table_name +:+ ":" +:+ nl);
      describe_tables conn statement i j rest schema_info
  end.

Definition not_implemented : string :=
  "Schema auto-detection not implemented for this database type yet.".

Definition get_schema_info (db_type : string) (db_params : dict) : M string :=
  try_except
    (if decide (db_type = "sqlite") then
       db_path ← getitem db_params "path";
       conn ← connect (SqliteDb db_path);
       cur ← cur_execute conn "SELECT name FROM sqlite_master WHERE type='table';";
       let tables := fetchall cur in
       schema_info ← describe_tables conn
                       (λ table_name, "PRAGMA table_info(" +:+ table_name +:+ ");")
                       1 2 tables ("Tables:" +:+ nl);
       close conn;;
       mret schema_info
     else if decide (db_type = "mysql") then
       conn ← connect (MysqlDb db_params);
       cur ← cur_execute conn "SHOW TABLES;";
       let tables := fetchall cur in
       schema_info ← describe_tables conn
                       (λ table_name, "DESCRIBE " +:+ table_name +:+ ";")
                       0 1 tables ("Tables:" +:+ nl);
       close conn;;
       mret schema_info
     else mret not_implemented)
    (λ e, mret ("Could not retrieve schema: " +:+ e)).

(** ** The endpoints [/generate_query], [/get_schema] and [/health] *)





Definition health_check : M (record * Z) :=
  mret ({[ "status" := PStr "healthy" ]}, 200).
End Schema.

(** ** Notions used to state the properties of this part *)

(** [sub] occurs in [s]. *)
Definition occurs_in (sub s : string) : Prop :=
  ∃ before after, s = before +:+ sub +:+ after.

(** The number of calls to the text-generation service that a log
    records. *)
Fixpoint generated (log : list event) : nat :=
  match log with
  | [] => O
  | Generated _ :: older => S (generated older)
  | _ :: older => generated older
  end.

(** The number of connections and clients that a log records as
    opened. *)
Fixpoint opened (log : list event) : nat :=
  match log with
  | [] => O
  | Opened _ :: older => S (opened older)
  | _ :: older => opened older
  end.

(** The records a correction cycle bounded by [max_retries] can end with:
    success at an attempt [n] within the bound, a failed correction at an
    attempt below the bound, or the failure of the last attempt. *)
Inductive cycle_record (max_retries : Z) : record → Prop :=
  | cycle_succeeded n results sql :
      1 ≤ n ≤ max_retries →
      cycle_record max_retries (success_record results sql (n - 1))
  | cycle_correction_failed n correction_error error_msg :
      1 ≤ n < max_retries →
      cycle_record max_retries
        (correction_failed_record correction_error error_msg (n - 1))
  | cycle_exhausted error_msg sql :
      1 ≤ max_retries →
      cycle_record max_retries (last_attempt_record error_msg sql (max_retries - 1)).

Section Asking.
Context `{Services}.



End Asking.

(** ** Services that fail, to run the error paths *)

Module Faulty.

(** Every driver call raises, except that a MongoDB client and collection
    can be obtained; the text is never valid JSON. *)
Definition services : Services := {|
  ext := ();
  generate_content := λ _ x, (Raise "deadline exceeded", x);
  db_connect := λ _ x, (Raise "unable to open database file", x);
  db_execute := λ _ _ x, (Raise "no such table", x);
  db_commit := λ _ x, (Raise "database is locked", x);
  Filter := string;
  empty_filter := "{}";
  json_loads := λ _, Raise "Expecting value: line 1 column 2 (char 1)";
  mongo_client := λ _ _ _ _ x, (Return tt, x);
  Collection := string;
  mongo_collection := Scripted.collection_name;
  mongo_find := λ _ _ x, (Raise "connection refused", x)
|}.

Definition start : @world services := @World services tt O [].
End Faulty.

(** The line of [get_schema_info] for a column whose row has the name at
    position [i] and the type at position [j]. *)
Definition column_line (i j : nat) (col : list value) : string :=
  "  - " +:+ py_str (default VNone (col !! i)) +:+ " ("
         +:+ py_str (default VNone (col !! j)) +:+ ")" +:+ nl.

Fixpoint column_lines (i j : nat) (columns : list (list value)) : string :=
  match columns with
  | [] => ""
  | col :: rest => column_line i j col +:+ column_lines i j rest
  end.


(** The statement that lists the tables of a sqlite database. *)
Definition list_sqlite_tables : string :=
  "SELECT name FROM sqlite_master WHERE type='table';".

(** ** More scripted runs *)

Module MoreRuns.
Import Scripted Runs.


Definition users_request : request :=
  Request (Some "sqlite") (Some users_db) (Some "SELECT * FROM users")
          (Some schema) (Some asked).

Definition users_rows : exec_result :=
  Rows (dict_zip (description users_cursor) <$> fetchall users_cursor).

Definition no_tables : script := Script [Return (Cursor ["name"] [] (-1))] [] [].

Definition table_info : list (list value) :=
  [ [VInt 0; VStr "id"; VStr "INTEGER"]; [VInt 1; VStr "name"; VStr "TEXT"] ].

(** A database with the one table [users]. *)
Definition one_table : script :=
  Script [Return (Cursor ["name"] [[VStr "users"]] (-1));
          Return (Cursor [] table_info (-1))] [] [].
End MoreRuns.

(** * Properties *)

(** ** The functions on concrete inputs *)

Example strip_both_sides : Str.strip "  SELECT 1;  " = "SELECT 1;".
Proof. reflexivity. Qed.

Example replace_overlap : Str.replace "aa" "b" "aaaaa" = "bba".
Proof. reflexivity. Qed.

Example replace_empty_old : Str.replace "" "x" "abc" = "xaxbxcx".
Proof. reflexivity. Qed.

Example clean_sql_tagged : clean_sql "  ```sql SELECT 1; ```  " = "SELECT 1;".
Proof. reflexivity. Qed.

Example clean_sql_untagged : clean_sql "``` SELECT 1; ```" = "SELECT 1;".
Proof. reflexivity. Qed.

Example clean_sql_plain : clean_sql " select 1 " = "select 1".
Proof. reflexivity. Qed.

Example is_select_lower : is_select "  select * from users" = true.
Proof. reflexivity. Qed.

Example is_select_with : is_select "WITH t AS (SELECT 1) SELECT * FROM t" = false.
Proof. reflexivity. Qed.

Example dict_zip_row :
  dict_zip ["id"; "name"] [VInt 1; VStr "ada"] !! "name" = Some (VStr "ada").
Proof. vm_compute. reflexivity. Qed.

Example dict_zip_last_wins :
  dict_zip ["id"; "id"] [VInt 1; VInt 2] !! "id" = Some (VInt 2).
Proof. vm_compute. reflexivity. Qed.

(** ** Python string methods *)

Module StrFacts.
Import Str.

Lemma lstrip_lstripped s : lstripped (lstrip s) = true.
Proof.
  induction s as [|c s IH]; simpl; [done|].
  destruct (isspace c) eqn:Hc; [done|]. simpl. by rewrite Hc.
Qed.

Lemma lstrip_fixed s : lstripped s = true → lstrip s = s.
Proof.
  destruct s as [|c s]; simpl; [done|].
  by destruct (isspace c).
Qed.

Lemma rstrip_lstripped s : lstripped s = true → lstripped (rstrip s) = true.
Proof.
  destruct s as [|c s]; simpl; [done|]. intros Hc.
  destruct (rstrip s); simpl; [|done].
  destruct (isspace c) eqn:E; simpl; rewrite ?E; done.
Qed.

Lemma rstrip_idem s : rstrip (rstrip s) = rstrip s.
Proof.
  induction s as [|c s IH]; simpl; [done|].
  destruct (rstrip s) as [|d r] eqn:Hr.
  - destruct (isspace c) eqn:Hc; simpl; [done|]. by rewrite Hc.
  - simpl in *. by rewrite IH.
Qed.

Lemma strip_idem s : strip (strip s) = strip s.
Proof.
  unfold strip.
  rewrite (lstrip_fixed (rstrip (lstrip s))).
  - apply rstrip_idem.
  - apply rstrip_lstripped, lstrip_lstripped.
Qed.

(** A prefix without spaces is not affected by trimming on the right. *)
Lemma startswith_rstrip p s :
  nospace p = true → startswith p (rstrip s) = startswith p s.
Proof.
  revert p. induction s as [|c s IH]; intros p Hp; [done|].
  destruct p as [|a p]; [by destruct (rstrip (String c s))|].
  simpl in Hp. apply andb_prop in Hp as [Ha Hp].
  specialize (IH p Hp). simpl.
  destruct (rstrip s) as [|d r] eqn:Hr.
  - destruct (decide (a = c)) as [->|Hne].
    + destruct (isspace c) eqn:Hc; [done|].
      simpl. rewrite decide_True by done.
      rewrite <- IH. by destruct p.
    + destruct (isspace c); simpl; [done|]. by rewrite decide_False.
  - simpl. destruct (decide (a = c)); [|done]. exact IH.
Qed.

Lemma startswith_strip p s :
  nospace p = true → startswith p (strip s) = startswith p (lstrip s).
Proof. intros Hp. unfold strip. by apply startswith_rstrip. Qed.

(** A prefix of a prefix. *)
Lemma startswith_app p q s :
  startswith (p +:+ q) s = true → startswith p s = true.
Proof.
  revert s. induction p as [|a p IH]; intros s; simpl; [done|].
  destruct s as [|c s]; [done|].
  destruct (decide (a = c)); [apply IH | done].
Qed.
End StrFacts.

(** ** Code fences *)

Module FenceFacts.
Import Str StrFacts Fence.

Lemma startswith_fence_ticks s :
  startswith fence s = bool_decide (3 ≤ ticks s)%nat.
Proof.
  destruct s as [|c1 [|c2 [|c3 s]]]; simpl; try done;
    repeat (case_decide; simpl; try done);
    symmetry; first [ apply bool_decide_eq_true; lia
                    | apply bool_decide_eq_false; lia ].
Qed.

Lemma replace_fence_skip s :
  replace_go fence "" O (String "`" (String "`" (String "`" s)))
  = replace_go fence "" O s.
Proof. reflexivity. Qed.

Lemma replace_fence_keep c s :
  startswith fence (String c s) = false →
  replace_go fence "" O (String c s) = String c (replace_go fence "" O s).
Proof. intros Hs. cbn [replace_go]. by rewrite Hs. Qed.

Lemma startswith_fence_inv s :
  startswith fence s = true → ∃ t, s = String "`" (String "`" (String "`" t)).
Proof.
  destruct s as [|c1 [|c2 [|c3 s]]]; simpl; try done;
    repeat (case_decide; simpl; try done).
  subst. by eexists.
Qed.

(** What is left after all fences were removed, scanning from the left,
    starts with fewer than three backticks and contains no fence. *)
Lemma replace_fence_bounded n s :
  (String.length s ≤ n)%nat →
  contains_fence (replace_go fence "" O s) = false ∧
  (ticks (replace_go fence "" O s) ≤ ticks s)%nat ∧
  (ticks (replace_go fence "" O s) ≤ 2)%nat.
Proof.
  revert s. induction n as [|n IH]; intros s Hn.
  { destruct s; simpl in *; [repeat split; lia || done | lia]. }
  destruct s as [|c s]; [simpl; repeat split; lia || done|].
  destruct (startswith fence (String c s)) eqn:Hs.
  - destruct (startswith_fence_inv _ Hs) as [t Ht]. rewrite Ht.
    rewrite replace_fence_skip.
    assert (String.length t ≤ n)%nat as Hlen.
    { rewrite Ht in Hn. simpl in Hn. lia. }
    destruct (IH t Hlen) as (Hc & Ht1 & Ht2).
    repeat split; [done| |done].
    simpl. lia.
  - rewrite replace_fence_keep by done.
    assert (String.length s ≤ n)%nat as Hlen by (simpl in Hn; lia).
    destruct (IH s Hlen) as (Hc & Ht1 & Ht2).
    rewrite startswith_fence_ticks in Hs.
    apply bool_decide_eq_false in Hs.
    assert (ticks (String c (replace_go fence "" O s)) ≤ ticks (String c s))%nat
      as Hle.
    { simpl. case_decide; lia. }
    repeat split; [|done|lia].
    cbn [contains_fence]. rewrite Hc, startswith_fence_ticks.
    rewrite orb_false_r. apply bool_decide_eq_false. lia.
Qed.

Lemma replace_fence_clean s : contains_fence (replace fence "" s) = false.
Proof. apply (replace_fence_bounded (String.length s) s). lia. Qed.

Lemma contains_fence_lstrip s :
  contains_fence s = false → contains_fence (lstrip s) = false.
Proof.
  induction s as [|c s IH]; [done|]. intros Hs. simpl.
  destruct (isspace c); [|done].
  apply IH. simpl in Hs. by apply orb_false_elim in Hs as [_ Hs].
Qed.

Lemma rstrip_cons c s :
  rstrip (String c s) = EmptyString ∨ rstrip (String c s) = String c (rstrip s).
Proof. simpl. destruct (rstrip s), (isspace c); auto. Qed.

Lemma contains_fence_rstrip s :
  contains_fence s = false → contains_fence (rstrip s) = false.
Proof.
  induction s as [|c s IH]; [done|]. intros Hs.
  cbn [contains_fence] in Hs. apply orb_false_elim in Hs as [Hhd Htl].
  specialize (IH Htl).
  pose proof (startswith_rstrip fence (String c s) eq_refl) as Hpre.
  rewrite Hhd in Hpre.
  destruct (rstrip_cons c s) as [E|E]; rewrite E in *; [done|].
  cbn [contains_fence]. by rewrite Hpre, IH.
Qed.

Lemma contains_fence_strip s :
  contains_fence s = false → contains_fence (strip s) = false.
Proof. intros Hs. by apply contains_fence_rstrip, contains_fence_lstrip. Qed.

Lemma startswith_contains s :
  startswith fence s = true → contains_fence s = true.
Proof. destruct s; [done|]. intros Hs. cbn [contains_fence]. by rewrite Hs. Qed.

(** A stripped text without a fence is left as it is. *)
Lemma clean_sql_fixed r :
  strip r = r → contains_fence r = false → clean_sql r = r.
Proof.
  intros Hr Hc. unfold clean_sql. rewrite Hr.
  destruct (startswith fence r) eqn:Hf.
  { apply startswith_contains in Hf. congruence. }
  destruct (startswith fence_sql r) eqn:Hfs; [|done].
  apply (startswith_app fence "sql") in Hfs. congruence.
Qed.
End FenceFacts.

(** C8. The formatting-marker stripping of [generate_sql_with_gemini] is
    idempotent: cleaning a text that was already cleaned returns it
    unchanged. *)
Theorem clean_sql_idempotent (text : string) :
  clean_sql (clean_sql text) = clean_sql text.
Proof.
  unfold clean_sql at 2 3.
  destruct (Str.startswith fence_sql (Str.strip text)) eqn:Hfs.
  { apply FenceFacts.clean_sql_fixed; [apply StrFacts.strip_idem|].
    apply FenceFacts.contains_fence_strip, FenceFacts.replace_fence_clean. }
  destruct (Str.startswith fence (Str.strip text)) eqn:Hf.
  { apply FenceFacts.clean_sql_fixed; [apply StrFacts.strip_idem|].
    apply FenceFacts.contains_fence_strip, FenceFacts.replace_fence_clean. }
  unfold clean_sql. rewrite StrFacts.strip_idem. by rewrite Hfs, Hf.
Qed.

(** ** Read or write *)

Module KeywordFacts.
Import Str StrFacts Keyword.







End KeywordFacts.

Ltac run_adapter :=
  unfold execute_relational, execute_sql_sqlite, execute_sql_mysql,
    execute_sql_postgres, connect, cur_execute, commit, close, call, emit,
    fresh_handle, mbind, M_bind, bind, mret, M_ret, ret; simpl.

Section RelationalFacts.
Context `{Services}.

End RelationalFacts.

Section ConnectionFacts.
Context `{Services}.

(** When the statement raises, the adapter raises the same message and the
    connection it opened stays open. *)
Lemma relational_error_keeps_open (t : target) (sql msg : string) (w : world)
    (x1 x2 : ext) :
  db_connect t (outside w) = (Return tt, x1) →
  db_execute t sql x1 = (Raise msg, x2) →
  let h := next_handle w in
  execute_relational t sql w =
    (Raise msg, World _ x2 (S h) (Executed h sql :: Opened h :: log w))
  ∧ h ∈ live (Executed h sql :: Opened h :: log w).
Proof.
  intros Hconn Hexec. split.
  - destruct t; run_adapter; rewrite Hconn; simpl; rewrite Hexec; reflexivity.
  - simpl. set_solver.
Qed.

(** When the adapter returns, the connection it opened is closed. *)
Lemma relational_return_closes (t : target) (sql : string) (w w' : world)
    (r : exec_result) :
  execute_relational t sql w = (Return r, w') →
  next_handle w ∉ live (log w').
Proof.
  destruct t; run_adapter;
    destruct (db_connect _ (outside w)) as [[[]|?] x1]; simpl; try done;
    destruct (db_execute _ sql x1) as [[cur|?] x2]; simpl; try done;
    destruct (is_select sql); simpl;
    try (destruct (db_commit _ x2) as [[[]|?] x3]; simpl; try done);
    intros Heq; apply (f_equal snd) in Heq; simpl in Heq; subst w';
    simpl; rewrite elem_of_difference, elem_of_singleton; tauto.
Qed.
End ConnectionFacts.

(** C6, at a failing input.  The statement of a sqlite execution raises:
    the adapter raises the driver's message and returns without closing the
    connection it opened (handle 0), which is still open afterwards. *)
Theorem sqlite_error_leaves_connection_open :
  let w := Scripted.start (Scripted.Script [] [] []) in
  let sql := "SELECT * FROM nosuchtable" in
  ∃ w', @execute_sql_sqlite Scripted.services (VStr "users.db") sql w
          = (Raise "no such table: nosuchtable", w')
        ∧ log w' = [Executed 0 sql; Opened 0]
        ∧ 0%nat ∈ live (log w').
Proof.
  eexists. split; [reflexivity|]. split; [reflexivity|].
  simpl. set_solver.
Qed.

Section MongoFacts.
Context `{Services}.

Lemma coerce_id_as_text d : id_as_text d (coerce_id d).
Proof.
  unfold id_as_text, coerce_id.
  destruct (d !! "_id") as [v|] eqn:Hid; simpl.
  - split; [by rewrite lookup_insert_eq|].
    intros k Hk. by rewrite lookup_insert_ne.
  - by rewrite Hid.
Qed.

(** The document-store adapter closes its client when the query raises as
    well as when it returns. *)
Lemma mongo_closes (params : dict) (query_text : string)
    (collection : option value) (w : world) (x1 : ext) (coll : Collection) :
  mongo_client (default (VStr "localhost") (params !! "host"))
               (default (VInt 27017) (params !! "port"))
               (params !! "username") (params !! "password") (outside w)
    = (Return tt, x1) →
  mongo_collection (params !! "database") collection = Return coll →
  next_handle w ∉ live (log (execute_sql_mongo params query_text collection w).2).
Proof.
  intros Hclient Hcoll.
  unfold execute_sql_mongo, mongo_connect, try_finally, call, emit,
    fresh_handle, pure_call, mbind, M_bind, bind, mret, M_ret, ret; simpl.
  rewrite Hclient; simpl. rewrite Hcoll; simpl.
  match goal with |- context [try_except ?b ?h ?w0] =>
    destruct (try_except b h w0) as [r w1] end.
  simpl. rewrite elem_of_difference, elem_of_singleton. tauto.
Qed.

(** Trimming on the right does not change the first character. *)
Lemma mongo_filter_lstrip query_text :
  mongo_filter query_text =
    if Str.startswith "{" (Str.lstrip query_text)
    then pure_call (json_loads query_text) else mret empty_filter.
Proof. unfold mongo_filter. by rewrite StrFacts.startswith_strip. Qed.

(** C9. A document-store execution parses the query text as a filter
    document when the text, leading whitespace trimmed, begins with an
    opening brace, and uses the empty filter otherwise; it returns the
    documents of the named collection that match the filter, each with its
    [_id] field turned into text. *)
Theorem mongo_filter_and_documents (params : dict) (query_text : string)
    (collection : option value) (w : world) (x1 x2 : ext) (coll : Collection)
    (filter : Filter) (docs : list dict) :
  mongo_client (default (VStr "localhost") (params !! "host"))
               (default (VInt 27017) (params !! "port"))
               (params !! "username") (params !! "password") (outside w)
    = (Return tt, x1) →
  mongo_collection (params !! "database") collection = Return coll →
  (if Str.startswith "{" (Str.lstrip query_text)
   then json_loads query_text else Return empty_filter) = Return filter →
  mongo_find coll filter x1 = (Return docs, x2) →
  let h := next_handle w in
  execute_sql_mongo params query_text collection w =
    (Return (coerce_id <$> docs),
     World _ x2 (S h) (Closed h :: Opened h :: log w))
  ∧ Forall2 id_as_text docs (coerce_id <$> docs).
Proof.
  intros Hclient Hcoll Hfilter Hfind. split.
  - unfold execute_sql_mongo. rewrite mongo_filter_lstrip.
    revert Hfilter.
    destruct (Str.startswith "{" (Str.lstrip query_text)); intros Hfilter;
      unfold mongo_connect, try_finally, try_except, call, emit, fresh_handle,
        pure_call, mbind, M_bind, bind, mret, M_ret, ret; simpl;
      rewrite Hclient; simpl; rewrite Hcoll; simpl.
    + rewrite Hfilter; simpl. rewrite Hfind. reflexivity.
    + injection Hfilter as <-. rewrite Hfind. reflexivity.
  - apply Forall2_fmap_r, Forall_Forall2_diag, Forall_forall.
    intros d _. apply coerce_id_as_text.
Qed.

(** C10. The result of [generate_sql_with_gemini] does not depend on
    [max_retries]: with the same prompt, in the same world, any two values
    of the parameter give the same outcome and leave the same world. *)
Theorem generate_ignores_max_retries (prompt : string) (m1 m2 : Z) (w : world) :
  generate_sql_with_gemini prompt m1 w = generate_sql_with_gemini prompt m2 w.
Proof. reflexivity. Qed.
End MongoFacts.

(** ** The correction cycle *)

Section Cycle.
Context `{Services}.
Variables (db_type : string) (db_params : dict).
Variables (schema_info original_question : string).
Variable max_retries : Z.

Local Abbreviation earlier := (repaired db_type db_params schema_info
                                        original_question).
Local Abbreviation loop := (attempt_loop db_type db_params schema_info original_question
                               max_retries).
Local Abbreviation cycle sql := (auto_correct_and_execute db_type db_params sql schema_info
                                                original_question max_retries).

(** After [k] repaired attempts the loop is at its attempt [a + k]. *)
Lemma loop_repaired k sql w sql' w' :
  earlier k sql w sql' w' →
  ∀ a n, a + Z.of_nat k < max_retries ∨ k = O → Z.of_nat k ≤ n →
    loop (seqZ a n) sql w = loop (seqZ (a + Z.of_nat k) (n - Z.of_nat k)) sql' w'.
Proof.
  induction 1 as [sql w|k sql w e w1 sql1 w2 sql' w' Hexec Hgen _ IH];
    intros a n Hmax Hn.
  { simpl. by rewrite Z.add_0_r, Z.sub_0_r. }
  destruct Hmax as [Hmax|?]; [|done].
  rewrite seqZ_cons by lia. cbn [attempt_loop]. rewrite Hexec.
  rewrite bool_decide_eq_true_2 by lia. rewrite Hgen.
  rewrite (IH (Z.succ a) (Z.pred n)) by lia.
  replace (Z.succ a + Z.of_nat k) with (a + Z.of_nat (S k)) by lia.
  by replace (Z.pred n - Z.of_nat k) with (n - Z.of_nat (S k)) by lia.
Qed.

Lemma cycle_repaired k sql w sql' w' :
  earlier k sql w sql' w' → Z.of_nat k < max_retries →
  cycle sql w =
    loop (Z.of_nat k :: seqZ (Z.of_nat k + 1) (max_retries - Z.of_nat k - 1))
         sql' w'.
Proof.
  intros Hrep Hk. unfold auto_correct_and_execute.
  rewrite (loop_repaired _ _ _ _ _ Hrep 0 max_retries) by lia.
  rewrite seqZ_cons by lia.
  replace (Z.succ (0 + Z.of_nat k)) with (Z.of_nat k + 1) by lia.
  replace (Z.pred (max_retries - Z.of_nat k)) with (max_retries - Z.of_nat k - 1)
    by lia.
  by rewrite Z.add_0_l.
Qed.
End Cycle.

Section CycleFacts.
Context `{Services}.
Variables (db_type : string) (db_params : dict).
Variables (schema_info original_question : string).
Variable max_retries : Z.

Local Abbreviation cycle sql := (auto_correct_and_execute db_type db_params sql
                                   schema_info original_question max_retries).
Local Abbreviation earlier := (repaired db_type db_params schema_info
                                        original_question).

(** C1, amended.  Attempt [n = k + 1] fails with [n] below the maximum
    and the correction-generation call that follows fails as well: the
    cycle ends there, in the world the failed generation left, with a
    failure record whose error is "Auto-correction failed: " followed by
    the generation error, which carries the execution error of attempt [n]
    as [original_error], and whose attempts field is [n]. *)
Theorem correction_failure_ends_cycle (k : nat) (sql0 sql : string)
    (w0 w w1 w2 : world) (error_msg correction_error : string) :
  earlier k sql0 w0 sql w →
  Z.of_nat k + 1 < max_retries →
  execute_backend db_type db_params sql w = (Raise error_msg, w1) →
  generate_sql_with_gemini
    (correction_prompt error_msg original_question schema_info sql) 3 w1
    = (Raise correction_error, w2) →
  cycle sql0 w0 =
    (Return (Some {[ "success" := PBool false;
                     "error" := PStr ("Auto-correction failed: " +:+ correction_error);
                     "original_error" := PStr error_msg;
                     "attempts" := PInt (Z.of_nat k + 1) ]}), w2).
Proof.
  intros Hrep Hn Hexec Hgen.
  rewrite (cycle_repaired _ _ _ _ _ _ _ _ _ _ Hrep) by lia.
  cbn [attempt_loop]. rewrite Hexec.
  rewrite bool_decide_eq_true_2 by lia. by rewrite Hgen.
Qed.

(** C2. Execution fails on every attempt up to the bound, the last of them
    being attempt [k + 1 = max_retries]: the cycle ends with a failure
    record whose attempts field is the maximum, whose error is the message
    of the last execution, and which carries the query text of that last
    attempt. *)
Theorem exhausted_cycle_reports_last_error (k : nat) (sql0 sql : string)
    (w0 w w1 : world) (error_msg : string) :
  earlier k sql0 w0 sql w →
  Z.of_nat k + 1 = max_retries →
  execute_backend db_type db_params sql w = (Raise error_msg, w1) →
  cycle sql0 w0 =
    (Return (Some {[ "success" := PBool false;
                     "error" := PStr error_msg;
                     "final_sql" := PStr sql;
                     "attempts" := PInt max_retries ]}), w1).
Proof.
  intros Hrep Hn Hexec.
  rewrite (cycle_repaired _ _ _ _ _ _ _ _ _ _ Hrep) by lia.
  cbn [attempt_loop]. rewrite Hexec.
  rewrite bool_decide_eq_false_2 by lia.
  unfold last_attempt_record. by replace (Z.of_nat k + 1) with max_retries.
Qed.

(** C3. The first execution attempt succeeds: the record has attempts 1
    and [final_sql] is the input query text, unmodified. *)
Theorem first_attempt_success (sql : string) (w w1 : world)
    (results : exec_result) :
  0 < max_retries →
  execute_backend db_type db_params sql w = (Return results, w1) →
  cycle sql w =
    (Return (Some {[ "success" := PBool true;
                     "results" := PResults results;
                     "final_sql" := PStr sql;
                     "attempts" := PInt 1 ]}), w1).
Proof.
  intros Hmax Hexec. unfold auto_correct_and_execute.
  rewrite seqZ_cons by lia. cbn [attempt_loop]. by rewrite Hexec.
Qed.

(** C4, amended.  Execution fails once, the correction is generated, and
    the second attempt succeeds: the record has attempts 2 and
    [final_sql] is the text the correction-generation call returned. *)
Theorem second_attempt_success (sql corrected_sql : string)
    (w w1 w2 w3 : world) (error_msg : string) (results : exec_result) :
  1 < max_retries →
  execute_backend db_type db_params sql w = (Raise error_msg, w1) →
  generate_sql_with_gemini
    (correction_prompt error_msg original_question schema_info sql) 3 w1
    = (Return corrected_sql, w2) →
  execute_backend db_type db_params corrected_sql w2 = (Return results, w3) →
  cycle sql w =
    (Return (Some {[ "success" := PBool true;
                     "results" := PResults results;
                     "final_sql" := PStr corrected_sql;
                     "attempts" := PInt 2 ]}), w3).
Proof.
  intros Hmax Hexec Hgen Hexec2.
  assert (earlier 1 sql w corrected_sql w2) as Hrep.
  { eapply repaired_next; [exact Hexec|exact Hgen|apply repaired_none]. }
  rewrite (cycle_repaired _ _ _ _ _ _ _ _ _ _ Hrep) by lia.
  cbn [attempt_loop]. by rewrite Hexec2.
Qed.
End CycleFacts.

(** ** The endpoint *)

Section EndpointFacts.
Context `{Services}.

(** The response to a failed cycle carries the error and the attempts of
    the controller's record, and nothing else of it. *)
Lemma failure_response (data : request) (w w' : world) (r : record) (e : pyval) :
  complete data →
  cycle_of data w = (Return (Some r), w') →
  r !! "success" = Some (PBool false) →
  r !! "error" = Some e →
  execute_query data w =
    (Return ({[ "success" := PBool false;
                "error" := e;
                "attempts" := default (PInt 1) (r !! "attempts") ]}, 500), w').
Proof.
  unfold complete, cycle_of, execute_query. intros -> Hcycle Hsucc Herr.
  unfold mbind, M_bind, bind, getitem, mret, M_ret, ret. simpl.
  rewrite Hcycle. by rewrite Hsucc, Herr.
Qed.
End EndpointFacts.

(** ** Runs on scripted services *)

Module RunFacts.
Import Scripted Runs.

Ltac by_run := vm_compute; reflexivity.

Lemma correction_failure_ends_cycle_witness :
  (cycle "SELEC * FROM users" 3 (start two_failures)).1
  = Return (Some {[ "success" := PBool false;
                    "error" := PStr "Auto-correction failed: Gemini API error: quota exceeded";
                    "original_error" := PStr "no such table: user";
                    "attempts" := PInt 2 ]}).
Proof.
  set (w0 := start two_failures).
  pose (w1 := after (backend "SELEC * FROM users") w0).
  pose (w2 := after (correction "near SELEC: syntax error" "SELEC * FROM users") w1).
  pose (w3 := after (backend "SELECT * FROM user") w2).
  pose (w4 := after (correction "no such table: user" "SELECT * FROM user") w3).
  unfold cycle.
  rewrite (@correction_failure_ends_cycle services "sqlite" users_db schema asked
             3 1%nat "SELEC * FROM users" "SELECT * FROM user" w0 w2 w3 w4
             "no such table: user" "Gemini API error: quota exceeded").
  - by_run.
  - apply (repaired_next _ _ _ _ O _ w0 "near SELEC: syntax error" w1
             "SELECT * FROM user" w2 _ w2); [by_run|by_run|apply repaired_none].
  - lia.
  - by_run.
  - by_run.
Defined.

(** C1 as stated fails.  The first attempt fails, the correction
    generation fails, and the error of the record does not start with
    "auto-correction failed: ": the code writes a capital A. *)
Lemma lowercase_prefix_counterexample :
  let sql := "SELECT * FROM nosuchtable" in
  let w0 := start all_down in
  (backend sql w0).1 = Raise "no such table: nosuchtable" ∧
  (correction "no such table: nosuchtable" sql (after (backend sql) w0)).1
    = Raise "Gemini API error: quota exceeded" ∧
  ∃ r, (cycle sql 3 w0).1 = Return (Some r) ∧
       r !! "attempts" = Some (PInt 1) ∧
       r !! "original_error" = Some (PStr "no such table: nosuchtable") ∧
       r !! "error" ≠
         Some (PStr ("auto-correction failed: " +:+ "Gemini API error: quota exceeded")).
Proof.
  split; [by_run|]. split; [by_run|].
  exists (correction_failed_record "Gemini API error: quota exceeded"
            "no such table: nosuchtable" 0).
  split; [by_run|]. split; [by_run|]. split; [by_run|].
  apply (bool_decide_unpack _). by_run.
Qed.

Lemma exhausted_cycle_reports_last_error_witness :
  (cycle "SELECT * FROM nosuchtable" 3 (start always_fails)).1
  = Return (Some {[ "success" := PBool false;
                    "error" := PStr "no such table: nosuchtable";
                    "final_sql" := PStr "SELECT * FROM  nosuchtable";
                    "attempts" := PInt 3 ]}).
Proof.
  set (w0 := start always_fails).
  pose (e := "no such table: nosuchtable").
  set (sql0 := "SELECT * FROM nosuchtable").
  pose (sql1 := "SELECT * FROM nosuchtable;").
  pose (sql2 := "SELECT * FROM  nosuchtable").
  pose (w1 := after (backend sql0) w0).
  pose (w2 := after (correction e sql0) w1).
  pose (w3 := after (backend sql1) w2).
  pose (w4 := after (correction e sql1) w3).
  pose (w5 := after (backend sql2) w4).
  unfold cycle.
  rewrite (@exhausted_cycle_reports_last_error services "sqlite" users_db schema
             asked 3 2%nat sql0 sql2 w0 w4 w5 e).
  - by_run.
  - apply (repaired_next _ _ _ _ 1%nat sql0 w0 e w1 sql1 w2 sql2 w4);
      [by_run|by_run|].
    apply (repaired_next _ _ _ _ O sql1 w2 e w3 sql2 w4 sql2 w4);
      [by_run|by_run|apply repaired_none].
  - lia.
  - by_run.
Defined.

Lemma first_attempt_success_witness :
  (cycle "SELECT * FROM users" 3 (start first_ok)).1
  = Return (Some {[ "success" := PBool true;
                    "results" := PResults
                      (Rows [ {[ "id" := VInt 1; "name" := VStr "ada" ]};
                              {[ "id" := VInt 2; "name" := VStr "bob" ]} ]);
                    "final_sql" := PStr "SELECT * FROM users";
                    "attempts" := PInt 1 ]}).
Proof.
  set (w0 := start first_ok).
  unfold cycle.
  rewrite (@first_attempt_success services "sqlite" users_db schema asked 3
             "SELECT * FROM users" w0 (after (backend "SELECT * FROM users") w0)
             (Rows (dict_zip (description users_cursor) <$> fetchall users_cursor))).
  - by_run.
  - lia.
  - by_run.
Defined.

(** C4 as stated fails.  The first attempt fails, the correction is
    generated, the second attempt succeeds, and [final_sql] is the
    original query text. *)
Lemma unchanged_correction_counterexample :
  let sql := "SELECT * FROM users" in
  let w0 := start locked_once in
  let w1 := after (backend sql) w0 in
  let w2 := after (correction "database is locked" sql) w1 in
  (backend sql w0).1 = Raise "database is locked" ∧
  (correction "database is locked" sql w1).1 = Return sql ∧
  (∃ results, (backend sql w2).1 = Return results) ∧
  ∃ r, (cycle sql 3 w0).1 = Return (Some r) ∧
       r !! "attempts" = Some (PInt 2) ∧
       ¬ (r !! "final_sql" ≠ Some (PStr sql)).
Proof.
  pose (results := Rows (dict_zip (description users_cursor) <$> fetchall users_cursor)).
  split; [by_run|]. split; [by_run|].
  split; [exists results; by_run|].
  exists (success_record results "SELECT * FROM users" 1).
  split; [by_run|]. split; [by_run|].
  intros Hne. apply Hne. by_run.
Qed.

Lemma second_attempt_success_witness :
  (cycle "SELECT id, nam FROM users" 3 (start fixed_once)).1
  = Return (Some {[ "success" := PBool true;
                    "results" := PResults
                      (Rows [ {[ "id" := VInt 1; "name" := VStr "ada" ]};
                              {[ "id" := VInt 2; "name" := VStr "bob" ]} ]);
                    "final_sql" := PStr "SELECT id, name FROM users";
                    "attempts" := PInt 2 ]}).
Proof.
  set (w0 := start fixed_once).
  set (sql := "SELECT id, nam FROM users").
  pose (sql' := "SELECT id, name FROM users").
  pose (e := "no such column: nam").
  pose (w1 := after (backend sql) w0).
  pose (w2 := after (correction e sql) w1).
  pose (w3 := after (backend sql') w2).
  unfold cycle.
  rewrite (@second_attempt_success services "sqlite" users_db schema asked 3
             sql sql' w0 w1 w2 w3 e
             (Rows (dict_zip (description users_cursor) <$> fetchall users_cursor))).
  - by_run.
  - lia.
  - by_run.
  - by_run.
  - by_run.
Defined.


Lemma mongo_filter_and_documents_witness :
  (@execute_sql_mongo services shop " { }" (Some (VStr "people"))
     (start (Script [] [] people))).1
  = Return [ {[ "_id" := VStr "65a1f0c2"; "age" := VInt 41 ]};
             {[ "_id" := VStr "65a1f0c3"; "age" := VInt 35 ]} ].
Proof.
  destruct (@mongo_filter_and_documents services shop " { }" (Some (VStr "people"))
              (start (Script [] [] people)) (Script [] [] people)
              (Script [] [] people) "people" " { }" people
              ltac:(by_run) ltac:(by_run) ltac:(by_run) ltac:(by_run))
    as [Hrun _].
  cbv zeta in Hrun. rewrite Hrun. by_run.
Defined.
End RunFacts.

(** C5, at a failing input.  The execution raises and the correction
    generation raises: the controller's record carries the execution error
    as [original_error], and the response of the endpoint has the error of
    the correction and the attempts but no [original_error]: the execution
    error is not in the response. *)
Theorem execute_query_drops_original_error :
  let data := Request (Some "sqlite") (Some Scripted.users_db)
                      (Some "SELECT * FROM nosuchtable")
                      (Some Runs.schema) (Some Runs.asked) in
  let w0 := Scripted.start Runs.all_down in
  ∃ r body,
    (@cycle_of Scripted.services data w0).1 = Return (Some r) ∧
    r !! "original_error" = Some (PStr "no such table: nosuchtable") ∧
    (@execute_query Scripted.services data w0).1 = Return (body, 500) ∧
    body = {[ "success" := PBool false;
              "error" := PStr "Auto-correction failed: Gemini API error: quota exceeded";
              "attempts" := PInt 1 ]} ∧
    body !! "original_error" = None.
Proof.
  exists (correction_failed_record "Gemini API error: quota exceeded"
            "no such table: nosuchtable" 0).
  eexists. split; [vm_compute; reflexivity|]. split; [vm_compute; reflexivity|].
  split; [|split; [reflexivity|vm_compute; reflexivity]].
  vm_compute; reflexivity.
Qed.

(** * Properties of the rest of the code *)

(** ** The cleaned text *)

Module CleanFacts.
Import Str StrFacts Fence FenceFacts.

Lemma strip_no_fence_prefix s :
  contains_fence s = false → startswith fence (strip s) = false.
Proof.
  intros Hs. apply contains_fence_strip in Hs.
  destruct (startswith fence (strip s)) eqn:Hf; [|done].
  apply startswith_contains in Hf. congruence.
Qed.

(** What [clean_sql] returns: the stripped text, or a stripped text
    without any fence. *)
Lemma clean_sql_cases text :
  (clean_sql text = strip text ∧ startswith fence (strip text) = false) ∨
  (∃ u, clean_sql text = strip u ∧ contains_fence u = false
        ∧ startswith fence (strip text) = true).
Proof.
  unfold clean_sql.
  destruct (startswith fence_sql (strip text)) eqn:Hfs.
  { right. eexists. split; [done|]. split; [apply replace_fence_clean|].
    by apply (startswith_app fence "sql"). }
  destruct (startswith fence (strip text)) eqn:Hf.
  { right. eexists. split; [done|]. split; [apply replace_fence_clean|done]. }
  by left.
Qed.

Lemma clean_sql_shape text :
  strip (clean_sql text) = clean_sql text ∧
  startswith fence (clean_sql text) = false.
Proof.
  destruct (clean_sql_cases text) as [[-> Hf]|(u & -> & Hu & _)].
  - split; [apply strip_idem|done].
  - split; [apply strip_idem|]. by apply strip_no_fence_prefix.
Qed.
End CleanFacts.

(** X1. Whatever the model wrote, the cleaned text has no whitespace at
    either end and does not start with a code fence. *)
Theorem clean_sql_trimmed_unfenced (text : string) :
  Str.strip (clean_sql text) = clean_sql text ∧
  Str.startswith fence (clean_sql text) = false.
Proof. apply CleanFacts.clean_sql_shape. Qed.

(** X2. When the model's text, trimmed, starts with a code fence, every
    fence is removed: none is left anywhere in the cleaned text. *)
Theorem clean_sql_removes_every_fence (text : string) :
  Str.startswith fence (Str.strip text) = true →
  Fence.contains_fence (clean_sql text) = false.
Proof.
  intros Hf.
  destruct (CleanFacts.clean_sql_cases text) as [[_ Hn]|(u & -> & Hu & _)].
  - congruence.
  - by apply FenceFacts.contains_fence_strip.
Qed.

Lemma clean_sql_removes_every_fence_witness :
  Fence.contains_fence (clean_sql "```sql SELECT '```' ``` ") = false.
Proof. apply clean_sql_removes_every_fence. vm_compute. reflexivity. Defined.

(** ** The query generator and [/generate_query] *)

Ltac run_generator :=
  unfold generate_sql_with_gemini, try_except, call, emit, raise,
    mbind, M_bind, bind, mret, M_ret, ret; simpl.

Section GeneratorFacts.
Context `{Services}.

(** X3. A call of the query generator sends the prompt to the service once,
    whatever the outcome.  The query it returns has no whitespace at either
    end and does not start with a code fence; the message it raises is
    "Gemini API error: " followed by the service's message. *)
Theorem generate_outcomes (prompt : string) (max_retries : Z) (w : world) :
  ∃ o w', generate_sql_with_gemini prompt max_retries w = (o, w') ∧
    log w' = Generated prompt :: log w ∧
    match o with
    | Return sql =>
        (∃ text x, generate_content prompt (outside w) = (Return text, x)
                   ∧ sql = clean_sql text) ∧
        Str.strip sql = sql ∧ Str.startswith fence sql = false
    | Raise msg =>
        ∃ e x, generate_content prompt (outside w) = (Raise e, x)
               ∧ msg = "Gemini API error: " +:+ e
    end.
Proof.
  run_generator.
  destruct (generate_content prompt (outside w)) as [[text|e] x]; simpl.
  - eexists _, _. split; [done|]. split; [done|].
    split; [by eexists _, _|]. apply CleanFacts.clean_sql_shape.
  - eexists _, _. split; [done|]. split; [done|]. by eexists _, _.
Qed.

End GeneratorFacts.

(** ** The prompts *)

Module PromptFacts.

Lemma append_assoc (a b c : string) : (a +:+ b) +:+ c = a +:+ b +:+ c.
Proof.
  induction a as [|x a IH]; [done|].
  change (String x ((a +:+ b) +:+ c) = String x (a +:+ b +:+ c)). by f_equal.
Qed.

Lemma occurs_here sub after : occurs_in sub (sub +:+ after).
Proof. exists "", after. done. Qed.

Lemma occurs_later sub before s : occurs_in sub s → occurs_in sub (before +:+ s).
Proof.
  intros (b & a & ->). exists (before +:+ b), a. by rewrite append_assoc.
Qed.

Ltac find_text :=
  repeat first [ apply occurs_here | apply occurs_later ].
End PromptFacts.

(** X5. The prompt of the first generation embeds the schema text and the
    question as they are, and the name of the database type in upper
    case. *)
Theorem build_prompt_embeds (question schema_info db_type : string) :
  occurs_in schema_info (build_prompt question schema_info db_type) ∧
  occurs_in question (build_prompt question schema_info db_type) ∧
  occurs_in (Str.upper db_type) (build_prompt question schema_info db_type).
Proof. unfold build_prompt. repeat split; PromptFacts.find_text. Qed.

(** X6. The correction prompt embeds the error message, the original
    question, the schema text and the failing query as they are. *)
Theorem correction_prompt_embeds (error_msg original_question schema_info sql : string) :
  let prompt := correction_prompt error_msg original_question schema_info sql in
  occurs_in error_msg prompt ∧ occurs_in original_question prompt ∧
  occurs_in schema_info prompt ∧ occurs_in sql prompt.
Proof. unfold correction_prompt. repeat split; PromptFacts.find_text. Qed.

(** ** The adapters *)

Module DictFacts.

Abbreviation put := (λ (d : dict) (kv : string * value), <[kv.1 := kv.2]> d).


End DictFacts.



(** X8. Turning the identifier of a document into text is idempotent, and
    it keeps the keys of the document. *)
Theorem coerce_id_idempotent (d : dict) :
  coerce_id (coerce_id d) = coerce_id d ∧ dom (coerce_id d) = dom d.
Proof.
  unfold coerce_id. destruct (d !! "_id") as [v|] eqn:Hid.
  - rewrite lookup_insert_eq. simpl. split; [apply insert_insert_eq|].
    by apply dom_insert_lookup_L.
  - by rewrite Hid.
Qed.

Section MongoErrors.
Context `{Services}.

(** X9. When the filter text does not parse, or the find raises, the
    document-store adapter raises "MongoDB query error: " followed by the
    message, and its client is closed. *)
Theorem mongo_query_error (params : dict) (query_text : string)
    (collection : option value) (w : world) (x1 x2 : ext) (coll : Collection)
    (e : string) :
  mongo_client (default (VStr "localhost") (params !! "host"))
               (default (VInt 27017) (params !! "port"))
               (params !! "username") (params !! "password") (outside w)
    = (Return tt, x1) →
  mongo_collection (params !! "database") collection = Return coll →
  ((if Str.startswith "{" (Str.lstrip query_text)
    then json_loads query_text else Return empty_filter) = Raise e ∧ x2 = x1)
  ∨ (∃ filter,
       (if Str.startswith "{" (Str.lstrip query_text)
        then json_loads query_text else Return empty_filter) = Return filter
       ∧ mongo_find coll filter x1 = (Raise e, x2)) →
  let h := next_handle w in
  execute_sql_mongo params query_text collection w =
    (Raise ("MongoDB query error: " +:+ e),
     World _ x2 (S h) (Closed h :: Opened h :: log w)).
Proof.
  intros Hclient Hcoll Hfail.
  unfold execute_sql_mongo. rewrite mongo_filter_lstrip.
  revert Hfail.
  destruct (Str.startswith "{" (Str.lstrip query_text));
    intros [[Hparse ->]|(filter & Hparse & Hfind)];
    unfold mongo_connect, try_finally, try_except, call, emit, fresh_handle,
      pure_call, raise, mbind, M_bind, bind, mret, M_ret, ret; simpl;
    rewrite Hclient; simpl; rewrite Hcoll; simpl;
    try discriminate Hparse;
    try (rewrite Hparse; simpl);
    try (injection Hparse as <-);
    try (rewrite Hfind; simpl); reflexivity.
Qed.

(** X10. The database and collection names are checked before the [try]:
    when they are rejected, the adapter raises the driver's message as it is
    and the client it created stays open. *)
Theorem mongo_name_rejected (params : dict) (query_text : string)
    (collection : option value) (w : world) (x1 : ext) (e : string) :
  mongo_client (default (VStr "localhost") (params !! "host"))
               (default (VInt 27017) (params !! "port"))
               (params !! "username") (params !! "password") (outside w)
    = (Return tt, x1) →
  mongo_collection (params !! "database") collection = Raise e →
  let h := next_handle w in
  execute_sql_mongo params query_text collection w =
    (Raise e, World _ x1 (S h) (Opened h :: log w))
  ∧ h ∈ live (Opened h :: log w).
Proof.
  intros Hclient Hcoll. split.
  - unfold execute_sql_mongo, mongo_connect, call, emit, fresh_handle, pure_call,
      mbind, M_bind, bind, mret, M_ret, ret; simpl.
    rewrite Hclient; simpl. by rewrite Hcoll.
  - simpl. apply elem_of_union_l, elem_of_singleton. reflexivity.
Qed.
End MongoErrors.

Module AdapterRuns.
Import Scripted Runs.

Lemma relational_return_closes_witness :
  next_handle (start first_ok) ∉
    live (log (after (@execute_relational services (SqliteDb (VStr "users.db"))
                        "SELECT * FROM users") (start first_ok))).
Proof.
  apply (@relational_return_closes services (SqliteDb (VStr "users.db"))
           "SELECT * FROM users" (start first_ok) _
           (Rows (dict_zip (description users_cursor) <$> fetchall users_cursor))).
  vm_compute. reflexivity.
Defined.

Lemma relational_error_keeps_open_witness :
  (@execute_relational services (MysqlDb users_db) "SELECT * FROM nosuchtable"
     (start all_down)).1
  = Raise "no such table: nosuchtable".
Proof.
  destruct (@relational_error_keeps_open services (MysqlDb users_db)
              "SELECT * FROM nosuchtable" "no such table: nosuchtable"
              (start all_down) all_down all_down eq_refl eq_refl) as [Hrun _].
  cbv zeta in Hrun. rewrite Hrun. reflexivity.
Defined.

Lemma mongo_closes_witness :
  next_handle (start (Script [] [] people)) ∉
    live (log (@execute_sql_mongo services shop "{" (Some (VStr "people"))
                 (start (Script [] [] people))).2).
Proof.
  apply (@mongo_closes services shop "{" (Some (VStr "people"))
           (start (Script [] [] people)) (Script [] [] people) "people");
    vm_compute; reflexivity.
Defined.

Lemma mongo_query_error_witness :
  (@execute_sql_mongo Faulty.services shop "{age: " (Some (VStr "people"))
     Faulty.start).1
  = Raise "MongoDB query error: Expecting value: line 1 column 2 (char 1)".
Proof.
  rewrite (@mongo_query_error Faulty.services shop "{age: " (Some (VStr "people"))
             Faulty.start tt tt "people"
             "Expecting value: line 1 column 2 (char 1)").
  - reflexivity.
  - vm_compute. reflexivity.
  - vm_compute. reflexivity.
  - left. split; vm_compute; reflexivity.
Defined.

Lemma mongo_name_rejected_witness :
  (@execute_sql_mongo services shop "{}" None (start (Script [] [] people))).1
  = Raise "name must be an instance of str".
Proof.
  destruct (@mongo_name_rejected services shop "{}" None
              (start (Script [] [] people)) (Script [] [] people)
              "name must be an instance of str"
              ltac:(vm_compute; reflexivity) ltac:(vm_compute; reflexivity))
    as [Hrun _].
  cbv zeta in Hrun. rewrite Hrun. reflexivity.
Defined.
End AdapterRuns.

(** ** The correction cycle, for all services *)

Ltac run_backend :=
  unfold execute_backend, execute_sql_sqlite, execute_sql_mysql,
    execute_sql_postgres, execute_sql_mongo, mongo_connect, mongo_filter,
    getitem, connect, cur_execute, commit, close, try_finally, try_except,
    call, emit, fresh_handle, pure_call, raise,
    mbind, M_bind, bind, mret, M_ret, ret.

(** Case analysis on the innermost call whose outcome the goal inspects. *)
Ltac split_cases :=
  repeat match goal with
         | |- context [match ?x with _ => _ end] =>
             lazymatch x with
             | context [match _ with _ => _ end] => fail
             | _ => destruct x; simpl
             end
         end.

Section Effort.
Context `{Services}.

(** A backend execution asks nothing of the text-generation service and
    opens at most one connection. *)
Lemma backend_effort db_type db_params sql w :
  generated (log (execute_backend db_type db_params sql w).2) = generated (log w) ∧
  (opened (log (execute_backend db_type db_params sql w).2)
   ≤ S (opened (log w)))%nat.
Proof.
  run_backend; simpl. split_cases; split; simpl; lia.
Qed.

(** A generation asks the service once and opens no connection. *)
Lemma generation_effort prompt m w :
  generated (log (generate_sql_with_gemini prompt m w).2) = S (generated (log w)) ∧
  opened (log (generate_sql_with_gemini prompt m w).2) = opened (log w).
Proof.
  unfold generate_sql_with_gemini, try_except, call, emit, raise,
    mbind, M_bind, bind, mret, M_ret, ret; simpl.
  split_cases; split; reflexivity.
Qed.
End Effort.

(** ** The records of the controller *)

Module RecordFacts.



End RecordFacts.

Section CycleBounds.
Context `{Services}.
Variables (db_type : string) (db_params : dict).
Variables (schema_info original_question : string).
Variable max_retries : Z.

Local Abbreviation loop := (attempt_loop db_type db_params schema_info
                                         original_question max_retries).
Local Abbreviation cycle sql := (auto_correct_and_execute db_type db_params sql
                                   schema_info original_question max_retries).

Lemma seqZ_next a (m : nat) :
  seqZ a (Z.of_nat (S m)) = a :: seqZ (a + 1) (Z.of_nat m).
Proof.
  rewrite seqZ_cons by lia.
  replace (Z.pred (Z.of_nat (S m))) with (Z.of_nat m) by lia.
  by replace (Z.succ a) with (a + 1) by lia.
Qed.

(** The loop over the attempts that are left, the last of which is attempt
    [max_retries], asks for at most one correction less than it has
    attempts and opens at most one connection per attempt. *)
Lemma loop_effort (m : nat) :
  ∀ a sql w, a + Z.of_nat m = max_retries →
    (generated (log (loop (seqZ a (Z.of_nat m)) sql w).2)
     ≤ generated (log w) + Nat.pred m)%nat ∧
    (opened (log (loop (seqZ a (Z.of_nat m)) sql w).2) ≤ opened (log w) + m)%nat.
Proof.
  induction m as [|m IH]; intros a sql w Ha.
  { rewrite seqZ_nil by lia. simpl. lia. }
  rewrite seqZ_next. cbn [attempt_loop].
  destruct (backend_effort db_type db_params sql w) as [Hg Ho].
  destruct (execute_backend db_type db_params sql w) as [[results|error_msg] w1];
    simpl in *; [lia|].
  case_bool_decide as Hlast; simpl; [|lia].
  match goal with |- context [generate_sql_with_gemini ?p ?n w1] =>
    destruct (generation_effort p n w1) as [Hg1 Ho1];
    destruct (generate_sql_with_gemini p n w1) as [[corrected|e] w2]
  end; simpl in *; [|lia].
  destruct (IH (a + 1) corrected w2) as [Hg2 Ho2]; lia.
Qed.

(** The loop over at least one attempt ends with one of the three records
    of a cycle. *)
Lemma loop_reports (m : nat) :
  ∀ a sql w, 0 ≤ a → a + Z.of_nat (S m) = max_retries →
    ∃ r w', loop (seqZ a (Z.of_nat (S m))) sql w = (Return (Some r), w')
            ∧ cycle_record max_retries r.
Proof.
  induction m as [|m IH]; intros a sql w Ha Hmax;
    rewrite seqZ_next; cbn [attempt_loop];
    destruct (execute_backend db_type db_params sql w) as [[results|error_msg] w1].
  - eexists _, _. split; [done|].
    replace a with (a + 1 - 1) at 1 by lia. apply cycle_succeeded. lia.
  - rewrite bool_decide_eq_false_2 by lia.
    eexists _, _. split; [done|].
    replace a with (max_retries - 1) by lia. apply cycle_exhausted. lia.
  - eexists _, _. split; [done|].
    replace a with (a + 1 - 1) at 1 by lia. apply cycle_succeeded. lia.
  - rewrite bool_decide_eq_true_2 by lia.
    match goal with |- context [generate_sql_with_gemini ?p ?n w1] =>
      destruct (generate_sql_with_gemini p n w1) as [[corrected|e] w2]
    end.
    + apply IH; lia.
    + eexists _, _. split; [done|].
      replace a with (a + 1 - 1) at 1 by lia. apply cycle_correction_failed. lia.
Qed.

Lemma cycle_reports sql w :
  1 ≤ max_retries →
  ∃ r w', cycle sql w = (Return (Some r), w') ∧ cycle_record max_retries r.
Proof.
  intros Hmax. unfold auto_correct_and_execute.
  destruct (loop_reports (Z.to_nat (max_retries - 1)) 0 sql w)
    as (r & w' & Hrun & Hrec); [lia|lia|].
  replace (Z.of_nat (S (Z.to_nat (max_retries - 1)))) with max_retries in Hrun
    by lia.
  by exists r, w'.
Qed.

(** X11. With a bound of zero or less the cycle makes no attempt: it
    returns [None] and leaves the world as it was. *)
Theorem cycle_without_attempts (sql : string) (w : world) :
  max_retries ≤ 0 → cycle sql w = (Return None, w).
Proof.
  intros Hmax. unfold auto_correct_and_execute. by rewrite seqZ_nil by lia.
Qed.

(** X12. With a bound of at least one the cycle never raises and never
    returns [None]: it returns a success record of an attempt within the
    bound, the record of a failed correction at an attempt below the bound,
    or the record of the failure of the last attempt. *)
Theorem cycle_always_reports (sql : string) (w : world) :
  1 ≤ max_retries →
  ∃ r w', cycle sql w = (Return (Some r), w') ∧ cycle_record max_retries r.
Proof. apply cycle_reports. Qed.

(** X13. A cycle asks the text-generation service for at most
    [max_retries - 1] corrections and opens at most [max_retries]
    connections, whatever the services answer. *)
Theorem cycle_effort_bounded (sql : string) (w : world) :
  (generated (log (cycle sql w).2)
   ≤ generated (log w) + Z.to_nat (max_retries - 1))%nat ∧
  (opened (log (cycle sql w).2) ≤ opened (log w) + Z.to_nat max_retries)%nat.
Proof.
  unfold auto_correct_and_execute.
  destruct (Z.le_gt_cases 0 max_retries) as [Hmax|Hmax].
  - destruct (loop_effort (Z.to_nat max_retries) 0 sql w) as [Hg Ho]; [lia|].
    rewrite Z2Nat.id in Hg, Ho by done. lia.
  - rewrite seqZ_nil by lia. simpl. lia.
Qed.
End CycleBounds.

Section BackendEdges.
Context `{Services}.

Lemma backend_unsupported (db_type : string) (db_params : dict)
    (sql : string) (w : world) :
  db_type ∉ ["sqlite"; "mysql"; "postgres"; "mongo"] →
  execute_backend db_type db_params sql w = (Raise "Unsupported database type", w).
Proof.
  rewrite !not_elem_of_cons. intros (H1 & H2 & H3 & H4 & _).
  unfold execute_backend. by rewrite !decide_False by done.
Qed.

(** X14. A database type that is none of the four raises "Unsupported
    database type" inside the [try], before anything is opened. *)
Theorem unsupported_database_type (db_type : string) (db_params : dict)
    (sql : string) (w : world) :
  db_type ∉ ["sqlite"; "mysql"; "postgres"; "mongo"] →
  execute_backend db_type db_params sql w = (Raise "Unsupported database type", w).
Proof. apply backend_unsupported. Qed.

(** X15. A sqlite execution whose parameters have no [path] raises the
    text of the [KeyError], and no connection is opened. *)
Theorem sqlite_without_path (db_params : dict) (sql : string) (w : world) :
  db_params !! "path" = None →
  execute_backend "sqlite" db_params sql w = (Raise "'path'", w).
Proof.
  intros Hpath. unfold execute_backend, getitem, mbind, M_bind, bind, raise.
  rewrite decide_True by done. by rewrite Hpath.
Qed.

(** X23. When the execution on any of the four backends returns, the
    connection or client it opened is closed. *)
Theorem backend_return_closes (db_type : string) (db_params : dict)
    (sql : string) (w w' : world) (results : exec_result) :
  execute_backend db_type db_params sql w = (Return results, w') →
  next_handle w ∉ live (log w').
Proof.
  run_backend; simpl. split_cases; intros Heq; try discriminate Heq;
    apply (f_equal snd) in Heq; simpl in Heq; subst w'; simpl;
    rewrite elem_of_difference, elem_of_singleton; tauto.
Qed.
End BackendEdges.

Section UnsupportedCycle.
Context `{Services}.
Variables (db_type : string) (db_params : dict).
Variables (schema_info original_question : string).
Variable max_retries : Z.
Hypothesis unsupported : db_type ∉ ["sqlite"; "mysql"; "postgres"; "mongo"].

Local Abbreviation loop := (attempt_loop db_type db_params schema_info
                                         original_question max_retries).


End UnsupportedCycle.

(** ** The endpoints, for all services *)


Section EndpointAnswers.
Context `{Services}.



End EndpointAnswers.

(** ** The schema *)

Section SchemaFacts.
Context `{Services}.

Lemma append_empty (s : string) : s +:+ "" = s.
Proof.
  induction s as [|c s IH]; [done|].
  change (String c (s +:+ "") = String c s). by rewrite IH.
Qed.

(** X18. Rows that all have the two positions give one line each, in
    order, appended to the text so far; nothing is asked of the world. *)
Theorem describe_columns_lines (i j : nat) (columns : list (list value))
    (schema_info : string) (w : world) :
  Forall (λ col, is_Some (col !! i) ∧ is_Some (col !! j)) columns →
  describe_columns i j columns schema_info w
  = (Return (schema_info +:+ column_lines i j columns), w).
Proof.
  revert schema_info. induction columns as [|col rest IH]; intros schema_info Hall.
  { simpl. by rewrite append_empty. }
  apply Forall_cons in Hall as [[[a Ha] [b Hb]] Hall].
  cbn [describe_columns column_lines].
  unfold tuple_get, mbind, M_bind, bind, mret, M_ret, ret.
  rewrite Ha, Hb. rewrite IH by done.
  unfold column_line. rewrite Ha, Hb. simpl.
  by rewrite !PromptFacts.append_assoc.
Qed.



(** X20. For a database type other than sqlite and mysql (postgres and
    mongo among them) the schema is the fixed text that detection is not
    implemented, and nothing is opened. *)
Theorem schema_not_implemented (db_type : string) (db_params : dict) (w : world) :
  db_type ≠ "sqlite" → db_type ≠ "mysql" →
  get_schema_info db_type db_params w = (Return not_implemented, w).
Proof.
  intros H1 H2. unfold get_schema_info, try_except.
  by rewrite !decide_False by done.
Qed.

(** X21. When the statement that lists the tables of a sqlite database
    raises, the schema is "Could not retrieve schema: " followed by the
    message, and the connection that was opened stays open. *)
Theorem schema_statement_error (db_params : dict) (db_path : value) (w : world)
    (x1 x2 : ext) (msg : string) :
  db_params !! "path" = Some db_path →
  db_connect (SqliteDb db_path) (outside w) = (Return tt, x1) →
  db_execute (SqliteDb db_path) list_sqlite_tables x1 = (Raise msg, x2) →
  let h := next_handle w in
  get_schema_info "sqlite" db_params w =
    (Return ("Could not retrieve schema: " +:+ msg),
     World _ x2 (S h) (Executed h list_sqlite_tables :: Opened h :: log w))
  ∧ h ∈ live (Executed h list_sqlite_tables :: Opened h :: log w).
Proof.
  intros Hpath Hconn Hexec. split.
  - unfold get_schema_info, try_except, getitem, connect, cur_execute, call, emit,
      fresh_handle, mbind, M_bind, bind, mret, M_ret, ret; simpl.
    rewrite Hpath; simpl. rewrite Hconn; simpl.
    unfold list_sqlite_tables in Hexec. by rewrite Hexec.
  - simpl. apply elem_of_union_l, elem_of_singleton. reflexivity.
Qed.

(** X22. A sqlite database without tables has the schema "Tables:" and a
    newline, and the connection is closed. *)
Theorem schema_without_tables (db_params : dict) (db_path : value) (w : world)
    (x1 x2 : ext) (cur : cursor) :
  db_params !! "path" = Some db_path →
  db_connect (SqliteDb db_path) (outside w) = (Return tt, x1) →
  db_execute (SqliteDb db_path) list_sqlite_tables x1 = (Return cur, x2) →
  fetchall cur = [] →
  let h := next_handle w in
  get_schema_info "sqlite" db_params w =
    (Return ("Tables:" +:+ nl),
     World _ x2 (S h)
       (Closed h :: Executed h list_sqlite_tables :: Opened h :: log w)).
Proof.
  intros Hpath Hconn Hexec Hrows.
  unfold get_schema_info, try_except, getitem, connect, cur_execute, close, call,
    emit, fresh_handle, mbind, M_bind, bind, mret, M_ret, ret; simpl.
  rewrite Hpath; simpl. rewrite Hconn; simpl.
  unfold list_sqlite_tables in Hexec. rewrite Hexec; simpl. by rewrite Hrows.
Qed.
End SchemaFacts.

(** ** More runs on scripted services *)

Module MoreRunFacts.
Import Scripted Runs MoreRuns.

Ltac by_run := vm_compute; reflexivity.

Example schema_of_one_table :
  (@get_schema_info services "sqlite" users_db (start one_table)).1
  = Return ("Tables:" +:+ nl +:+ nl +:+ "users:" +:+ nl +:+
            "  - id (INTEGER)" +:+ nl +:+ "  - name (TEXT)" +:+ nl).
Proof. by_run. Qed.

Lemma cycle_without_attempts_witness :
  cycle "SELECT * FROM users" 0 (start first_ok) = (Return None, start first_ok).
Proof.
  apply (@cycle_without_attempts services "sqlite" users_db schema asked 0). lia.
Defined.

Lemma cycle_always_reports_witness :
  ∃ r w', cycle "SELECT * FROM users" 3 (start all_down) = (Return (Some r), w')
          ∧ cycle_record 3 r.
Proof.
  apply (@cycle_always_reports services "sqlite" users_db schema asked 3). lia.
Defined.

Lemma unsupported_database_type_witness :
  @execute_backend services "oracle" users_db "SELECT 1" (start first_ok)
  = (Raise "Unsupported database type", start first_ok).
Proof.
  apply (@unsupported_database_type services).
  apply (bool_decide_unpack _). by_run.
Defined.


Lemma backend_return_closes_witness :
  next_handle (start first_ok) ∉
    live (log (after (backend "SELECT * FROM users") (start first_ok))).
Proof.
  apply (@backend_return_closes services "sqlite" users_db "SELECT * FROM users"
           (start first_ok) _ users_rows).
  by_run.
Defined.

Lemma sqlite_without_path_witness :
  @execute_backend services "sqlite" shop "SELECT 1" (start first_ok)
  = (Raise "'path'", start first_ok).
Proof. apply (@sqlite_without_path services). by_run. Defined.


Lemma failure_response_witness :
  (@execute_query services users_request (start all_down)).1
  = Return ({[ "success" := PBool false;
               "error" := PStr "Auto-correction failed: Gemini API error: quota exceeded";
               "attempts" := PInt 1 ]}, 500).
Proof.
  rewrite (@failure_response services users_request (start all_down)
             (after (@cycle_of services users_request) (start all_down))
             (correction_failed_record "Gemini API error: quota exceeded"
                "no such table: nosuchtable" 0)
             (PStr "Auto-correction failed: Gemini API error: quota exceeded")).
  - by_run.
  - by_run.
  - by_run.
  - by_run.
  - by_run.
Defined.

Lemma describe_columns_lines_witness :
  @describe_columns services 1 2 table_info "users:" (start first_ok)
  = (Return ("users:" +:+ column_lines 1 2 table_info), start first_ok).
Proof.
  apply (@describe_columns_lines services).
  repeat constructor; by eexists.
Defined.

Lemma schema_not_implemented_witness :
  @get_schema_info services "postgres" shop (start first_ok)
  = (Return not_implemented, start first_ok).
Proof. by apply (@schema_not_implemented services). Defined.

Lemma schema_statement_error_witness :
  (@get_schema_info services "sqlite" users_db (start all_down)).1
  = Return "Could not retrieve schema: no such table: nosuchtable".
Proof.
  destruct (@schema_statement_error services users_db (VStr "users.db")
              (start all_down) all_down all_down "no such table: nosuchtable"
              ltac:(by_run) ltac:(by_run) ltac:(by_run)) as [Hrun _].
  cbv zeta in Hrun. rewrite Hrun. by_run.
Defined.

Lemma schema_without_tables_witness :
  (@get_schema_info services "sqlite" users_db (start no_tables)).1
  = Return ("Tables:" +:+ nl).
Proof.
  rewrite (@schema_without_tables services users_db (VStr "users.db")
             (start no_tables) no_tables all_down (Cursor ["name"] [] (-1))
             ltac:(by_run) ltac:(by_run) ltac:(by_run) ltac:(by_run)).
  reflexivity.
Defined.
End MoreRunFacts.
